(** * Neutral trajectories: the bottle-to-cast connection and its chaining

    A shallow embedding of [neutralocean/traj.py].  Python floats are IEEE
    binary64 numbers, embedded as Rocq's primitive [float]; one-dimensional
    ndarrays are lists of floats; exceptions are an explicit [result].  *)

From Stdlib Require Import ZArith List Bool Lia.
From Stdlib Require String.
Import String.StringSyntax.
Delimit Scope string_scope with string.
From Stdlib Require Import Floats.
Import ListNotations.

Set Implicit Arguments.

(** ** Exceptions *)

Inductive exn : Type :=
| TypeError
| IndexError.

Inductive result (A : Type) : Type :=
| Ok (a : A)
| Raise (e : exn).

Arguments Ok {A} a.
Arguments Raise {A} e.

Definition bind {A B : Type} (r : result A) (k : A -> result B) : result B :=
  match r with
  | Ok a => k a
  | Raise e => Raise e
  end.

Notation "x <- r ;; k" := (bind r (fun x => k))
  (at level 61, r at next level, right associativity).

(** ** Arrays *)

Definition array := list float.

(** [a[i]] for an integer index: negative indices count from the end, and an
    index outside the array raises. *)
Definition getitem (a : array) (i : Z) : result float :=
  let n := Z.of_nat (length a) in
  let j := if (i <? 0)%Z then (i + n)%Z else i in
  if ((0 <=? j) && (j <? n))%Z
  then match nth_error a (Z.to_nat j) with
       | Some x => Ok x
       | None => Raise IndexError
       end
  else Raise IndexError.

(** ** The callables handed around by the module *)

(** An equation of state: salinity, temperature, pressure to density. *)
Definition eos_fn := float -> float -> float -> float.

(** An interpolator of two dependent variables at once:
    [interp_fn p P S T] evaluates [S] and [T] at [p]. *)
Definition interp_fn_t := float -> array -> array -> array -> float * float.

(** The tuple [args = (sB, tB, pB, S, T, P, eos, interp_fn)]. *)
Record func_args : Type := mk_args {
  a_sB : float;
  a_tB : float;
  a_pB : float;
  a_S : array;
  a_T : array;
  a_P : array;
  a_eos : eos_fn;
  a_interp_fn : interp_fn_t
}.

Open Scope float_scope.

(** ** [_func]: the connection objective *)

Definition _func (p sB tB pB : float) (S T P : array)
           (eos : eos_fn) (interp_fn : interp_fn_t) : float :=
  let '(s, t) := interp_fn p P S T in
  let p_avg := (pB + p) * 0.5 in
  eos sB tB p_avg - eos s t p_avg.

(** [f(x, *args)] with [f = _func]. *)
Definition _func_star (p : float) (args : func_args) : float :=
  _func p (a_sB args) (a_tB args) (a_pB args) (a_S args) (a_T args) (a_P args)
        (a_eos args) (a_interp_fn args).

(** ** [_ntp_bottle_to_cast] *)

Section Connector.

(** [neutralocean.fzero.guess_to_bounds(f, x, A, B, args)] and
    [neutralocean.fzero.brent(f, a, b, t, args)]: imported by the module,
    kept abstract here. *)
Variable guess_to_bounds :
  (float -> func_args -> float) -> float -> float -> float -> func_args ->
  float * float.
Variable brent :
  (float -> func_args -> float) -> float -> float -> float -> func_args ->
  float.

Definition _ntp_bottle_to_cast (sB tB pB : float) (S T P : array)
           (n_good : Z) (tol_p : float) (eos : eos_fn)
           (interp_fn : interp_fn_t) : result (float * float * float) :=
  if (n_good >? 1)%Z then
    let args := mk_args sB tB pB S T P eos interp_fn in
    P0 <- getitem P 0 ;;
    Pn <- getitem P (n_good - 1) ;;
    let '(lb, ub) := guess_to_bounds _func_star pB P0 Pn args in
    if is_finite lb then
      let p := brent _func_star lb ub tol_p args in
      let '(s, t) := interp_fn p P S T in
      Ok (s, t, p)
    else
      Ok (nan, nan, nan)
  else
    Ok (nan, nan, nan).

End Connector.

(** ** [find_first_nan] *)

(** Modelled from the spec: [neutralocean.lib.find_first_nan] is not among the
    sources.  The specification calls the valid length of a cast "the count
    of leading non-missing entries", and the docstring above says to compute
    it as [find_first_nan(S)]: the index of the first NaN, or the length of
    the array when there is none. *)
Fixpoint find_first_nan (a : array) : Z :=
  match a with
  | [] => 0%Z
  | x :: r => if is_nan x then 0%Z else (1 + find_first_nan r)%Z
  end.

(** [np.sum(np.isfinite(a))]: how many entries are neither NaN nor infinite. *)
Fixpoint sum_isfinite (a : array) : Z :=
  match a with
  | [] => 0%Z
  | x :: r => ((if is_finite x then 1 else 0) + sum_isfinite r)%Z
  end.

(** ** Selectors of the public interface *)

(** The [eos] argument: a name such as 'gsw' or 'jmd', or a function. *)
Inductive eos_sel : Type :=
| EosName (name : String.string)
| EosFn (f : eos_fn).

(** ** Python values, for calls whose arguments are bound by position *)

Inductive value : Type :=
| VFloat (x : float)
| VInt (n : Z)
| VArray (a : array)
| VEos (f : eos_fn)
| VInterp (f : interp_fn_t).

(** ** Two-dimensional arrays of shape [(nk, nc)] *)

Record array2 : Type := mk_array2 {
  nk : nat;
  nc : nat;
  rows : list (list float)
}.

(** [A[:, c]] for [0 <= c]. *)
Definition column (A : array2) (c : nat) : result array :=
  if (c <? nc A)%nat
  then Ok (map (fun r => nth c r nan) (rows A))
  else Raise IndexError.

(** [a[i] = x] for [0 <= i]. *)
Fixpoint setitem (a : array) (i : nat) (x : float) : result array :=
  match a, i with
  | [], _ => Raise IndexError
  | _ :: r, O => Ok (x :: r)
  | y :: r, S j => r' <- setitem r j x ;; Ok (y :: r')
  end.

(** ** The driver, over the call it makes for each cast

    [connect s_prev t_prev p_prev Sc Tc Pc K] stands for the call in the loop
    body, with the previous bottle, the columns of cast [c] and the count
    [K]; [neutral_trajectory] below fixes it to the call the source makes. *)

Section Driver.

Variable connect :
  float -> float -> float -> array -> array -> array -> Z ->
  result (float * float * float).
Variable interp : interp_fn_t.
Variables S T P : array2.

(** The body of [for c in range(1, nc)], over the remaining values of
    [c]; [break] ends the loop with the arrays as they are. *)
Fixpoint traj_loop (cs : list nat) (s t p : array)
  : result (array * array * array) :=
  match cs with
  | [] => Ok (s, t, p)
  | c :: cs' =>
      Sc <- column S c ;;
      Tc <- column T c ;;
      Pc <- column P c ;;
      let K := sum_isfinite Sc in
      s_prev <- getitem s (Z.of_nat c - 1) ;;
      t_prev <- getitem t (Z.of_nat c - 1) ;;
      p_prev <- getitem p (Z.of_nat c - 1) ;;
      r <- connect s_prev t_prev p_prev Sc Tc Pc K ;;
      let '(sc, tc, pc) := r in
      s' <- setitem s c sc ;;
      t' <- setitem t c tc ;;
      p' <- setitem p c pc ;;
      if is_nan pc then Ok (s', t', p') else traj_loop cs' s' t' p'
  end.

Definition neutral_trajectory_with (p0 : float)
  : result (array * array * array) :=
  let s := repeat nan (nc S) in
  let t := repeat nan (nc S) in
  let p := repeat nan (nc S) in
  Sc <- column S 0 ;;
  Tc <- column T 0 ;;
  Pc <- column P 0 ;;
  let '(s_0, t_0) := interp p0 Pc Sc Tc in
  s <- setitem s 0 s_0 ;;
  t <- setitem t 0 t_0 ;;
  p <- setitem p 0 p0 ;;
  traj_loop (seq 1 (nc S - 1)) s t p.

End Driver.

Section Module_traj.

Variable guess_to_bounds :
  (float -> func_args -> float) -> float -> float -> float -> func_args ->
  float * float.
Variable brent :
  (float -> func_args -> float) -> float -> float -> float -> func_args ->
  float.

(** [neutralocean.eos.tools.make_eos(eos, grav, rho_c)] and
    [neutralocean.interp1d.make_interpolator(interp, 0, "1", True)]: they
    turn the selectors into callables, and are kept abstract. *)
Variable make_eos : eos_sel -> option float -> option float -> eos_fn.
Variable make_interpolator :
  String.string -> Z -> String.string -> bool -> interp_fn_t.

(** *** [ntp_bottle_to_cast] *)

Definition ntp_bottle_to_cast (sB tB pB : float) (S T P : array)
           (tol_p : float) (interp : String.string) (eos : eos_sel)
           (grav rho_c : option float) : result (float * float * float) :=
  let eos := make_eos eos grav rho_c in
  let interp_fn := make_interpolator interp 0%Z "1"%string true in
  let n_good := find_first_nan S in
  _ntp_bottle_to_cast guess_to_bounds brent
                      sB tB pB S T P n_good tol_p eos interp_fn.

(** A call of [_ntp_bottle_to_cast] with the positional arguments [argv]:
    they are
    bound to the ten parameters
    [(sB, tB, pB, S, T, P, n_good, tol_p, eos, interp_fn)]; any other
    number of arguments, or an argument of the wrong kind, is a
    [TypeError]. *)
Definition call__ntp_bottle_to_cast (argv : list value)
  : result (float * float * float) :=
  match argv with
  | [VFloat sB; VFloat tB; VFloat pB; VArray S'; VArray T'; VArray P';
     VInt n_good; VFloat tol_p; VEos eos; VInterp interp_fn] =>
      _ntp_bottle_to_cast guess_to_bounds brent
                          sB tB pB S' T' P' n_good tol_p eos interp_fn
  | _ => Raise TypeError
  end.

(** *** [neutral_trajectory] *)

(** The call made for each cast, as the loop writes it: twelve positional
    arguments. *)
Definition loop_call (tol_p : float) (eos : eos_fn) (interp : interp_fn_t)
           (s_prev t_prev p_prev : float) (Sc Tc Pc : array) (K : Z)
  : result (float * float * float) :=
  call__ntp_bottle_to_cast
    [VFloat s_prev; VFloat t_prev; VFloat p_prev;
     VArray Sc; VArray Tc; VArray Pc; VArray Sc; VArray Tc;
     VInt K; VEos eos; VInterp interp; VFloat tol_p].

Definition neutral_trajectory (S T P : array2) (p0 : float)
           (s0 t0 : option float) (tol_p : float) (interp : String.string)
           (eos : eos_sel) (grav rho_c : option float)
  : result (array * array * array) :=
  let eos := make_eos eos grav rho_c in
  let interp := make_interpolator interp 0%Z "1"%string true in
  neutral_trajectory_with (loop_call tol_p eos interp) interp S T P p0.

End Module_traj.

(** ** Reference collaborators

    The search, the root finder and the interpolator live in modules that
    are not among the sources.  The definitions below follow the
    specification's description of them; they give the embedding something
    to run. *)

(** Python's [max(x, y)] and [min(x, y)] on floats. *)
Definition fmax (x y : float) : float := if x <? y then y else x.
Definition fmin (x y : float) : float := if y <? x then y else x.

(** Opposite-signed values: one strictly negative, the other strictly
    positive. *)
Definition opposite_signs (u v : float) : bool :=
  ((u <? 0) && (0 <? v)) || ((0 <? u) && (v <? 0)).

(** Modelled from the spec: the bracketing search of section 4.2
    ([neutralocean.fzero.guess_to_bounds] is missing).  The interval
    [[x - dx, x + dx]], clamped to the domain [[A, B]], is widened
    geometrically until the objective has opposite signs at its two ends;
    once it covers the whole domain without a sign change the result is the
    sentinel [(nan, nan)]. *)
Fixpoint expand_bracket (fuel : nat) (f : float -> func_args -> float)
         (args : func_args) (x A B dx : float) : float * float :=
  let a := fmax (x - dx) A in
  let b := fmin (x + dx) B in
  if opposite_signs (f a args) (f b args) then (a, b)
  else if (a <=? A) && (B <=? b) then (nan, nan)
  else match fuel with
       | O => (nan, nan)
       | S k => expand_bracket k f args x A B (dx * 2)
       end.

Definition guess_to_bounds_ref (f : float -> func_args -> float)
           (x A B : float) (args : func_args) : float * float :=
  if is_nan x || is_nan A || is_nan B then (nan, nan)
  else
    let x := fmin (fmax x A) B in
    expand_bracket 64 f args x A B ((B - A) / 64).

(** The state of Brent's iteration: the current estimate [b], the previous
    one [a], the other end [c] of the bracket, the last two steps [d] and
    [e], and the objective at [a], [b], [c]. *)
Record brent_state : Type := mk_brent {
  br_a : float; br_b : float; br_c : float;
  br_d : float; br_e : float;
  br_fa : float; br_fb : float; br_fc : float
}.

Definition same_sign (u v : float) : bool :=
  ((0 <? u) && (0 <? v)) || ((u <? 0) && (v <? 0)).

(** One round of Brent's method: re-bracket, test for convergence, then take
    an inverse-quadratic or secant step when it is safe and a bisection step
    otherwise.  [inl p] is the converged estimate. *)
Definition brent_step (f : float -> func_args -> float) (args : func_args)
           (tol : float) (st : brent_state) : float + brent_state :=
  let '(mk_brent a b c d e fa fb fc) := st in
  (* keep the root between b and c *)
  let '(c, fc, d, e) :=
    if same_sign fb fc then (a, fa, b - a, b - a) else (c, fc, d, e) in
  (* make b the better estimate *)
  let '(a, b, c, fa, fb, fc) :=
    if abs fc <? abs fb then (b, c, b, fb, fc, fb) else (a, b, c, fa, fb, fc) in
  let tol1 := 2 * 0x1p-52 * abs b + 0.5 * tol in
  let xm := 0.5 * (c - b) in
  if (abs xm <=? tol1) || (fb =? 0) then inl b
  else
    let '(d, e) :=
      if (tol1 <=? abs e) && (abs fb <? abs fa) then
        let s := fb / fa in
        let '(p, q) :=
          if a =? c then (2 * xm * s, 1 - s)
          else
            let q := fa / fc in
            let r := fb / fc in
            (s * (2 * xm * q * (q - r) - (b - a) * (r - 1)),
             (q - 1) * (r - 1) * (s - 1)) in
        let q := if 0 <? p then - q else q in
        let p := abs p in
        let min1 := 3 * xm * q - abs (tol1 * q) in
        let min2 := abs (e * q) in
        if 2 * p <? fmin min1 min2 then (p / q, d) else (xm, xm)
      else (xm, xm) in
    let a := b in
    let fa := fb in
    let b :=
      if tol1 <? abs d then b + d
      else if 0 <? xm then b + tol1 else b - tol1 in
    inr (mk_brent a b c d e fa (f b args) fc).

Fixpoint brent_iter (fuel : nat) (f : float -> func_args -> float)
         (args : func_args) (tol : float) (st : brent_state) : float :=
  match fuel with
  | O => br_b st
  | S k =>
      match brent_step f args tol st with
      | inl p => p
      | inr st' => brent_iter k f args tol st'
      end
  end.

(** Modelled from the spec: the scalar root finder of section 4.3
    ([neutralocean.fzero.brent] is missing): Brent's combination of
    bisection, secant and inverse-quadratic steps on a bracket [[a, b]], to
    the tolerance [t], with at most 100 rounds, after which the best
    estimate is returned. *)
Definition brent_ref (f : float -> func_args -> float)
           (a b t : float) (args : func_args) : float :=
  let fa := f a args in
  let fb := f b args in
  brent_iter 100 f args t (mk_brent a b b (b - a) (b - a) fa fb fb).

(** Modelled from the spec: the dual-variable interpolator of section 6
    ([neutralocean.interp1d.make_interpolator] is missing), in its linear
    form: both dependent variables are evaluated at [p] on the interval of
    [P] that holds it, and a target outside the domain gives [(nan, nan)]. *)
Fixpoint interp_linear (p : float) (P S T : array) : float * float :=
  match P, S, T with
  | p0 :: P', s0 :: S', t0 :: T' =>
      match P', S', T' with
      | p1 :: _, s1 :: _, t1 :: _ =>
          if (p0 <=? p) && (p <=? p1) then
            let w := (p - p0) / (p1 - p0) in
            (s0 + w * (s1 - s0), t0 + w * (t1 - t0))
          else interp_linear p P' S' T'
      | _, _, _ => (nan, nan)
      end
  | _, _, _ => (nan, nan)
  end.

(** The linear equation of state of the specification's end-to-end
    scenario. *)
Definition eos_linear : eos_fn := fun s t p => t - s.

Definition make_eos_ref (e : eos_sel) (grav rho_c : option float) : eos_fn :=
  match e with
  | EosFn f => f
  | EosName _ => eos_linear
  end.

Definition make_interpolator_ref (interp : String.string) (d : Z)
           (kind : String.string) (twice : bool) : interp_fn_t :=
  interp_linear.

(** The default tolerance [tol_p = 1e-4], as the nearest binary64 number. *)
Definition tol_p_default : float := 0x1.a36e2eb1c432dp-14.

(** A synthetic cast with linear salinity and temperature profiles. *)
Definition cast_S : array := [34; 34.5; 35; 35.5; 36].
Definition cast_T : array := [20; 15; 10; 5; 0].
Definition cast_P : array := [0; 100; 200; 300; 400].


(** Five casts of five levels each, as arrays of shape [(5, 5)]: every
    cast is the synthetic cast, but for the third (column 2), whose salinity
    is 10 throughout, so that no point of it is neutrally related to a bottle
    coming from the others. *)
Definition five_S : array2 :=
  mk_array2 5 5 [[34; 34; 10; 34; 34];
                 [34.5; 34.5; 10; 34.5; 34.5];
                 [35; 35; 10; 35; 35];
                 [35.5; 35.5; 10; 35.5; 35.5];
                 [36; 36; 10; 36; 36]].
Definition five_T : array2 :=
  mk_array2 5 5 [[20; 20; 20; 20; 20];
                 [15; 15; 15; 15; 15];
                 [10; 10; 10; 10; 10];
                 [5; 5; 5; 5; 5];
                 [0; 0; 0; 0; 0]].
Definition five_P : array2 :=
  mk_array2 5 5 [[0; 0; 0; 0; 0];
                 [100; 100; 100; 100; 100];
                 [200; 200; 200; 200; 200];
                 [300; 300; 300; 300; 300];
                 [400; 400; 400; 400; 400]].

(** A single cast, as arrays of shape [(5, 1)]. *)
Definition one_S : array2 := mk_array2 5 1 [[34]; [34.5]; [35]; [35.5]; [36]].
Definition one_T : array2 := mk_array2 5 1 [[20]; [15]; [10]; [5]; [0]].
Definition one_P : array2 := mk_array2 5 1 [[0]; [100]; [200]; [300]; [400]].

(** A triple is missing when it is NaN throughout. *)
Definition missing (r : float * float * float) : Prop :=
  r = (nan, nan, nan).

(** The leading entries of [a] that are not NaN are its first [n]. *)
Definition leading_valid (a : array) (n : nat) : Prop :=
  (n <= length a)%nat /\
  (forall i, (i < n)%nat -> is_nan (nth i a nan) = false) /\
  ((n < length a)%nat -> is_nan (nth n a nan) = true).

(** * Properties *)

(** ** Facts on binary64 numbers *)

Lemma is_nan_nan : is_nan nan = true.
Proof. reflexivity. Qed.

Lemma is_finite_nan : is_finite nan = false.
Proof. reflexivity. Qed.

(** Addition of floats is commutative. *)
Lemma SFadd_comm (x y : spec_float) : SF64add x y = SF64add y x.
Proof.
  unfold SF64add, SFadd.
  destruct x as [sx | sx | | sx mx ex], y as [sy | sy | | sy my ey];
    try reflexivity;
    try (destruct sx, sy; reflexivity).
  rewrite (Z.min_comm ey ex), Z.add_comm. reflexivity.
Qed.

Lemma add_comm (x y : float) : x + y = y + x.
Proof.
  apply Prim2SF_inj. rewrite !add_spec. apply SFadd_comm.
Qed.

(** ** The objective *)

(** C4: [_func] interpolates the cast at [p], takes the average pressure of
    [p] and the bottle's [pB], and returns the equation of state of the
    bottle minus that of the interpolated cast point, both at the average
    pressure.  The average is computed as [(pB + p) * 0.5]. *)
Theorem func_difference_at_average
        (p sB tB pB : float) (S T P : array)
        (eos : eos_fn) (interp_fn : interp_fn_t) :
  _func p sB tB pB S T P eos interp_fn =
  let st := interp_fn p P S T in
  let p_avg := (p + pB) * 0.5 in
  eos sB tB p_avg - eos (fst st) (snd st) p_avg.
Proof.
  unfold _func. destruct (interp_fn p P S T) as [s t]. simpl.
  rewrite (add_comm pB p). reflexivity.
Qed.

(** ** The connector *)

Section Connector_facts.

Variable guess_to_bounds :
  (float -> func_args -> float) -> float -> float -> float -> func_args ->
  float * float.
Variable brent :
  (float -> func_args -> float) -> float -> float -> float -> func_args ->
  float.
Variables sB tB pB : float.
Variables S T P : array.
Variable tol_p : float.
Variable eos : eos_fn.
Variable interp_fn : interp_fn_t.

Let connect := _ntp_bottle_to_cast guess_to_bounds brent sB tB pB S T P.

(** With two or more valid points and both ends of the valid range in the
    array, the connector is the search followed by the root finder. *)
Lemma ntp_bottle_to_cast_unfold (n_good : Z) (P0 Pn : float) :
  (1 < n_good)%Z ->
  getitem P 0 = Ok P0 ->
  getitem P (n_good - 1) = Ok Pn ->
  connect n_good tol_p eos interp_fn =
  let args := mk_args sB tB pB S T P eos interp_fn in
  let br := guess_to_bounds _func_star pB P0 Pn args in
  if is_finite (fst br) then
    let p := brent _func_star (fst br) (snd br) tol_p args in
    Ok (fst (interp_fn p P S T), snd (interp_fn p P S T), p)
  else Ok (nan, nan, nan).
Proof.
  intros Hn H0 H1. unfold connect, _ntp_bottle_to_cast.
  replace (n_good >? 1)%Z with true by (symmetry; apply Z.gtb_lt; lia).
  rewrite H0, H1. simpl.
  destruct (guess_to_bounds _ _ _ _ _) as [lb ub]. simpl.
  destruct (is_finite lb); [| reflexivity].
  destruct (interp_fn _ _ _ _); reflexivity.
Qed.

(** Below two valid points the connector answers at once. *)
Lemma ntp_bottle_to_cast_short (n_good : Z) :
  (n_good <= 1)%Z ->
  connect n_good tol_p eos interp_fn = Ok (nan, nan, nan).
Proof.
  intros Hn. unfold connect, _ntp_bottle_to_cast.
  rewrite Z.gtb_ltb.
  destruct (Z.ltb_spec 1 n_good) as [Hlt | _]; [lia | reflexivity].
Qed.

End Connector_facts.

(** C5: a cast with at most one valid point gives the missing result,
    whatever the bottle, the search and the root finder are; neither of the
    two is consulted, and the arrays are not even indexed. *)
Theorem ntp_bottle_to_cast_too_few_points
        (guess_to_bounds :
           (float -> func_args -> float) -> float -> float -> float ->
           func_args -> float * float)
        (brent :
           (float -> func_args -> float) -> float -> float -> float ->
           func_args -> float)
        (sB tB pB : float) (S T P : array) (n_good : Z) (tol_p : float)
        (eos : eos_fn) (interp_fn : interp_fn_t) :
  (n_good <= 1)%Z ->
  _ntp_bottle_to_cast guess_to_bounds brent
                      sB tB pB S T P n_good tol_p eos interp_fn
  = Ok (nan, nan, nan).
Proof.
  apply ntp_bottle_to_cast_short.
Qed.

Lemma ntp_bottle_to_cast_too_few_points_witness :
  (1 <= 1)%Z /\
  _ntp_bottle_to_cast guess_to_bounds_ref brent_ref
                      35 10 200 [35; nan] [10; nan] [200; nan] 1
                      tol_p_default eos_linear interp_linear
  = Ok (nan, nan, nan).
Proof.
  split; [lia |].
  apply ntp_bottle_to_cast_too_few_points. lia.
Defined.

(** C6: with two or more valid points, a search that reports no sign change
    (a lower bound that is not finite) makes the connector return the missing
    result, whatever the root finder is; it is the very result of a cast
    with too few points. *)
Theorem ntp_bottle_to_cast_no_sign_change
        (guess_to_bounds :
           (float -> func_args -> float) -> float -> float -> float ->
           func_args -> float * float)
        (brent :
           (float -> func_args -> float) -> float -> float -> float ->
           func_args -> float)
        (sB tB pB : float) (S T P : array) (n_good : Z) (tol_p : float)
        (eos : eos_fn) (interp_fn : interp_fn_t) (P0 Pn : float) :
  (1 < n_good)%Z ->
  getitem P 0 = Ok P0 ->
  getitem P (n_good - 1) = Ok Pn ->
  is_finite (fst (guess_to_bounds _func_star pB P0 Pn
                    (mk_args sB tB pB S T P eos interp_fn))) = false ->
  _ntp_bottle_to_cast guess_to_bounds brent
                      sB tB pB S T P n_good tol_p eos interp_fn
  = Ok (nan, nan, nan)
  /\
  forall n_few : Z,
    (n_few <= 1)%Z ->
    _ntp_bottle_to_cast guess_to_bounds brent
                        sB tB pB S T P n_few tol_p eos interp_fn
    = _ntp_bottle_to_cast guess_to_bounds brent
                          sB tB pB S T P n_good tol_p eos interp_fn.
Proof.
  intros Hn H0 H1 Hlb.
  assert (Hr : _ntp_bottle_to_cast guess_to_bounds brent
                 sB tB pB S T P n_good tol_p eos interp_fn
               = Ok (nan, nan, nan)).
  { rewrite (ntp_bottle_to_cast_unfold _ _ _ _ _ _ _ _ _ _ _ Hn H0 H1).
    cbv zeta. rewrite Hlb. reflexivity. }
  split; [exact Hr |].
  intros n_few Hfew. rewrite Hr.
  apply ntp_bottle_to_cast_short. exact Hfew.
Qed.

Lemma ntp_bottle_to_cast_no_sign_change_witness :
  _ntp_bottle_to_cast guess_to_bounds_ref brent_ref
                      30 30 120 cast_S cast_T cast_P 5
                      tol_p_default eos_linear interp_linear
  = Ok (nan, nan, nan)
  /\
  forall n_few : Z,
    (n_few <= 1)%Z ->
    _ntp_bottle_to_cast guess_to_bounds_ref brent_ref
                        30 30 120 cast_S cast_T cast_P n_few
                        tol_p_default eos_linear interp_linear
    = _ntp_bottle_to_cast guess_to_bounds_ref brent_ref
                          30 30 120 cast_S cast_T cast_P 5
                          tol_p_default eos_linear interp_linear.
Proof.
  apply (@ntp_bottle_to_cast_no_sign_change
           guess_to_bounds_ref brent_ref 30 30 120 cast_S cast_T cast_P 5
           tol_p_default eos_linear interp_linear 0 400).
  - lia.
  - reflexivity.
  - reflexivity.
  - vm_compute. reflexivity.
Defined.

(** ** The valid length used by the public connector *)

Lemma find_first_nan_bounds (a : array) :
  (0 <= find_first_nan a <= Z.of_nat (length a))%Z.
Proof.
  induction a as [| x r IH]; cbn [find_first_nan length].
  - lia.
  - destruct (is_nan x); lia.
Qed.

Lemma find_first_nan_leading (a : array) :
  leading_valid a (Z.to_nat (find_first_nan a)).
Proof.
  unfold leading_valid.
  induction a as [| x r IH]; cbn [find_first_nan length].
  - repeat split; intros; simpl in *; lia.
  - destruct (is_nan x) eqn:Hx.
    + repeat split; simpl; intros; try lia. exact Hx.
    + destruct IH as (Hle & Hpre & Hnext).
      pose proof (find_first_nan_bounds r) as Hb.
      replace (Z.to_nat (1 + find_first_nan r))
        with (Datatypes.S (Z.to_nat (find_first_nan r))) by lia.
      repeat split.
      * lia.
      * intros [| i] Hi; [exact Hx | apply Hpre; lia].
      * intros Hlt. apply Hnext. lia.
Qed.

Lemma find_first_nan_app (pre rest : array) (x : float) :
  Forall (fun y => is_nan y = false) pre ->
  is_nan x = true ->
  find_first_nan (pre ++ x :: rest) = Z.of_nat (length pre).
Proof.
  intros Hpre Hx.
  induction Hpre as [| y pre Hy _ IH]; cbn [app find_first_nan length].
  - rewrite Hx. reflexivity.
  - rewrite Hy, IH. lia.
Qed.

(** C9: the public connector takes the valid length of the cast from the
    salinity alone, as the length of its leading run of non-NaN entries, and
    is the fast connector at that length.  Temperature and pressure play no
    part in it, and neither does anything after the first NaN of the
    salinity. *)
Theorem ntp_bottle_to_cast_valid_length
        (guess_to_bounds :
           (float -> func_args -> float) -> float -> float -> float ->
           func_args -> float * float)
        (brent :
           (float -> func_args -> float) -> float -> float -> float ->
           func_args -> float)
        (make_eos : eos_sel -> option float -> option float -> eos_fn)
        (make_interpolator :
           String.string -> Z -> String.string -> bool -> interp_fn_t)
        (sB tB pB : float) (S T P : array) (tol_p : float)
        (interp : String.string) (eos : eos_sel)
        (grav rho_c : option float) :
  ntp_bottle_to_cast guess_to_bounds brent make_eos make_interpolator
                     sB tB pB S T P tol_p interp eos grav rho_c
  = _ntp_bottle_to_cast guess_to_bounds brent
                        sB tB pB S T P (find_first_nan S) tol_p
                        (make_eos eos grav rho_c)
                        (make_interpolator interp 0%Z "1"%string true)
  /\ leading_valid S (Z.to_nat (find_first_nan S))
  /\ (0 <= find_first_nan S)%Z
  /\ forall (pre rest rest' : array) (x : float),
       Forall (fun y => is_nan y = false) pre ->
       is_nan x = true ->
       S = pre ++ x :: rest ->
       find_first_nan (pre ++ x :: rest') = find_first_nan S.
Proof.
  split; [reflexivity |].
  split; [apply find_first_nan_leading |].
  split; [apply find_first_nan_bounds |].
  intros pre rest rest' x Hpre Hx ->.
  rewrite !find_first_nan_app by assumption. reflexivity.
Qed.

(** ** Arrays and exceptions *)

Lemma getitem_pred (a : array) (c : nat) :
  (1 <= c)%nat -> (c - 1 < length a)%nat ->
  getitem a (Z.of_nat c - 1) = Ok (nth (c - 1) a nan).
Proof.
  intros Hc Hlen. unfold getitem.
  destruct (Z.ltb_spec (Z.of_nat c - 1) 0) as [Hneg | _]; [lia |].
  destruct (Z.leb_spec 0 (Z.of_nat c - 1)) as [_ | Hneg]; [| lia].
  destruct (Z.ltb_spec (Z.of_nat c - 1) (Z.of_nat (length a))) as [_ | Hge];
    [| lia].
  simpl. replace (Z.to_nat (Z.of_nat c - 1)) with (c - 1)%nat by lia.
  destruct (nth_error a (c - 1)) as [x |] eqn:Hx.
  - rewrite (nth_error_nth _ _ nan Hx). reflexivity.
  - apply nth_error_None in Hx. lia.
Qed.

(** ** The driver *)

Lemma setitem_repeat_0 (n : nat) (x : float) :
  (1 <= n)%nat ->
  setitem (repeat nan n) 0 x = Ok (x :: repeat nan (n - 1)).
Proof.
  intros Hn. destruct n as [| k]; [lia |].
  cbn [repeat setitem]. replace (Datatypes.S k - 1)%nat with k by lia.
  reflexivity.
Qed.

Lemma column_ok (A : array2) (c : nat) :
  (c < nc A)%nat ->
  column A c = Ok (map (fun r => nth c r nan) (rows A)).
Proof.
  intros Hc. unfold column.
  destruct (Nat.ltb_spec c (nc A)) as [_ | Hge]; [reflexivity | lia].
Qed.

(** With two or more casts the driver raises: the call in its loop passes
    twelve arguments to a function of ten parameters. *)
Lemma loop_call_raises
      (guess_to_bounds :
         (float -> func_args -> float) -> float -> float -> float ->
         func_args -> float * float)
      (brent :
         (float -> func_args -> float) -> float -> float -> float ->
         func_args -> float)
      (tol_p : float) (eos : eos_fn) (interp : interp_fn_t)
      (s_prev t_prev p_prev : float) (Sc Tc Pc : array) (K : Z) :
  loop_call guess_to_bounds brent tol_p eos interp
            s_prev t_prev p_prev Sc Tc Pc K
  = Raise TypeError.
Proof. reflexivity. Qed.

(** X1: on two or more casts, with [T] and [P] as wide as that, the driver
    raises [TypeError] at the first pass of its loop, whatever the data, the
    start, the equation of state and the interpolator are. *)
Lemma neutral_trajectory_raises
      (guess_to_bounds :
         (float -> func_args -> float) -> float -> float -> float ->
         func_args -> float * float)
      (brent :
         (float -> func_args -> float) -> float -> float -> float ->
         func_args -> float)
      (make_eos : eos_sel -> option float -> option float -> eos_fn)
      (make_interpolator :
         String.string -> Z -> String.string -> bool -> interp_fn_t)
      (S T P : array2) (p0 : float) (s0 t0 : option float) (tol_p : float)
      (interp : String.string) (eos : eos_sel) (grav rho_c : option float) :
  (2 <= nc S)%nat -> (2 <= nc T)%nat -> (2 <= nc P)%nat ->
  neutral_trajectory guess_to_bounds brent make_eos make_interpolator
                     S T P p0 s0 t0 tol_p interp eos grav rho_c
  = Raise TypeError.
Proof.
  intros HS HT HP. unfold neutral_trajectory, neutral_trajectory_with.
  rewrite !column_ok by lia. cbn [bind].
  destruct (make_interpolator interp 0%Z "1"%string true p0 _ _ _)
    as [s_0 t_0].
  rewrite !setitem_repeat_0 by lia. cbn [bind].
  replace (nc S - 1)%nat with (Datatypes.S (nc S - 2)) by lia.
  cbn [seq traj_loop].
  rewrite !column_ok by lia. cbn [bind].
  reflexivity.
Qed.

(** C1: on five casts, the third of which has no point neutrally related
    to the bottle that would reach it, the driver returns no arrays at all:
    the first pass of its loop raises [TypeError], so there are no three
    valid entries followed by two NaNs. *)
Theorem neutral_trajectory_five_casts_raises :
  neutral_trajectory guess_to_bounds_ref brent_ref
                     make_eos_ref make_interpolator_ref
                     five_S five_T five_P 200 None None tol_p_default
                     "linear"%string (EosFn eos_linear) None None
  = Raise TypeError
  /\
  ~ (exists s t p : array,
        neutral_trajectory guess_to_bounds_ref brent_ref
                           make_eos_ref make_interpolator_ref
                           five_S five_T five_P 200 None None tol_p_default
                           "linear"%string (EosFn eos_linear) None None
        = Ok (s, t, p))
  /\
  is_finite
    (fst (guess_to_bounds_ref
            _func_star 200 0 400
            (mk_args 35 10 200 [10; 10; 10; 10; 10] cast_T cast_P
                     eos_linear interp_linear))) = false.
Proof.
  split; [vm_compute; reflexivity |].
  split.
  - intros (s & t & p & H). vm_compute in H. discriminate.
  - vm_compute. reflexivity.
Qed.

(** C2: the starting bottle [(s0, t0)] is never read.  On a single cast,
    with [s0 = t0 = 30] and [p0 = 150], position 0 of the trajectory is the
    cast interpolated at 150, as it is without [s0] and [t0]. *)
Theorem neutral_trajectory_start_bottle_unused :
  neutral_trajectory guess_to_bounds_ref brent_ref
                     make_eos_ref make_interpolator_ref
                     one_S one_T one_P 150 (Some 30) (Some 30) tol_p_default
                     "linear"%string (EosFn eos_linear) None None
  = Ok ([34.75], [12.5], [150])
  /\
  forall (guess_to_bounds :
            (float -> func_args -> float) -> float -> float -> float ->
            func_args -> float * float)
         (brent :
            (float -> func_args -> float) -> float -> float -> float ->
            func_args -> float)
         (make_eos : eos_sel -> option float -> option float -> eos_fn)
         (make_interpolator :
            String.string -> Z -> String.string -> bool -> interp_fn_t)
         (S T P : array2) (p0 : float) (s0 t0 : option float)
         (tol_p : float) (interp : String.string) (eos : eos_sel)
         (grav rho_c : option float),
    neutral_trajectory guess_to_bounds brent make_eos make_interpolator
                       S T P p0 s0 t0 tol_p interp eos grav rho_c
    = neutral_trajectory guess_to_bounds brent make_eos make_interpolator
                         S T P p0 None None tol_p interp eos grav rho_c.
Proof.
  split; [vm_compute; reflexivity | reflexivity].
Qed.

(** ** The count of valid points in the loop *)

Lemma is_finite_not_nan (x : float) : is_finite x = true -> is_nan x = false.
Proof.
  unfold is_finite. destruct (is_nan x); [discriminate | reflexivity].
Qed.

(** On a cast of finite entries followed by NaNs only, the count of finite
    entries is the index of the first NaN. *)
Lemma sum_isfinite_trailing_nan (pre : array) (k : nat) :
  Forall (fun x => is_finite x = true) pre ->
  sum_isfinite (pre ++ repeat nan k) = find_first_nan (pre ++ repeat nan k).
Proof.
  intros Hpre. induction Hpre as [| x pre Hx _ IH];
    cbn [app sum_isfinite find_first_nan].
  - induction k as [| k IHk]; [reflexivity |].
    cbn [repeat sum_isfinite find_first_nan].
    rewrite is_finite_nan, is_nan_nan.
    destruct k; cbn [repeat find_first_nan] in *;
      try rewrite is_nan_nan in IHk; lia.
  - rewrite Hx, (is_finite_not_nan _ Hx), IH. reflexivity.
Qed.

(** An infinite entry is not counted, though it is not a NaN. *)
Lemma sum_isfinite_infinity :
  sum_isfinite [infinity; 1; nan] = 1%Z /\
  find_first_nan [infinity; 1; nan] = 2%Z.
Proof. split; reflexivity. Qed.

(** C3: the call in the loop of the driver does not return what the public
    connector returns: for the bottle [(35, 10, 200)] and the synthetic cast
    the public connector returns the sample at 200, and the call raises, as
    it does for every bottle and cast. *)
Theorem loop_call_is_not_public_connector :
  ntp_bottle_to_cast guess_to_bounds_ref brent_ref
                     make_eos_ref make_interpolator_ref
                     35 10 200 cast_S cast_T cast_P tol_p_default
                     "linear"%string (EosFn eos_linear) None None
  = Ok (35, 10, 200)
  /\
  loop_call guess_to_bounds_ref brent_ref tol_p_default eos_linear
            interp_linear 35 10 200 cast_S cast_T cast_P
            (sum_isfinite cast_S)
  = Raise TypeError
  /\
  forall (guess_to_bounds :
            (float -> func_args -> float) -> float -> float -> float ->
            func_args -> float * float)
         (brent :
            (float -> func_args -> float) -> float -> float -> float ->
            func_args -> float)
         (tol_p : float) (eos : eos_fn) (interp : interp_fn_t)
         (s_prev t_prev p_prev : float) (Sc Tc Pc : array),
    loop_call guess_to_bounds brent tol_p eos interp
              s_prev t_prev p_prev Sc Tc Pc (sum_isfinite Sc)
    = Raise TypeError.
Proof.
  split; [vm_compute; reflexivity |].
  split; [reflexivity |].
  intros. apply loop_call_raises.
Qed.


(** * The rest of the module *)

(** ** Differences of binary64 numbers *)

Lemma SFcompare_refl (x : spec_float) :
  x <> S754_nan -> SFcompare x x = Some Eq.
Proof.
  destruct x as [s | s | | s m e]; intros Hx; simpl.
  - reflexivity.
  - destruct s; reflexivity.
  - congruence.
  - change (Pos.compare_cont Eq m m) with (Pos.compare m m).
    rewrite Z.compare_refl, Pos.compare_refl. destruct s; reflexivity.
Qed.

(** [is_nan] and [is_finite], read on the specification of a float. *)
Lemma is_nan_spec (x : float) :
  is_nan x = match Prim2SF x with S754_nan => true | _ => false end.
Proof.
  unfold is_nan. rewrite eqb_spec. unfold SFeqb.
  destruct (Prim2SF x) as [s | s | | s m e] eqn:Hx;
    try (rewrite SFcompare_refl by discriminate; reflexivity).
  reflexivity.
Qed.

Lemma is_finite_spec (x : float) :
  is_finite x =
  match Prim2SF x with
  | S754_nan | S754_infinity _ => false
  | _ => true
  end.
Proof.
  unfold is_finite. rewrite is_nan_spec.
  unfold is_infinity. rewrite eqb_spec, abs_spec.
  change (Prim2SF infinity) with (S754_infinity false).
  destruct (Prim2SF x) as [s | s | | s m e]; try destruct s; reflexivity.
Qed.

Lemma nan_of_spec (x : float) : Prim2SF x = S754_nan -> x = nan.
Proof.
  intros Hx. apply Prim2SF_inj. rewrite Hx. reflexivity.
Qed.

(** A difference with a NaN operand is NaN. *)
Lemma sub_nan (x y : float) :
  is_nan x = true \/ is_nan y = true -> x - y = nan.
Proof.
  rewrite !is_nan_spec. intros H.
  apply nan_of_spec. rewrite sub_spec. unfold SF64sub, SFsub.
  destruct (Prim2SF x) as [sx | sx | | sx mx ex],
           (Prim2SF y) as [sy | sy | | sy my ey];
    try reflexivity; destruct H; discriminate.
Qed.

(** A number minus itself is [0] when it is finite and NaN otherwise. *)
Lemma sub_diag (x : float) : x - x = if is_finite x then 0 else nan.
Proof.
  apply Prim2SF_inj. rewrite sub_spec, is_finite_spec.
  unfold SF64sub, SFsub.
  destruct (Prim2SF x) as [s | s | | s m e].
  - destruct s; reflexivity.
  - destruct s; reflexivity.
  - reflexivity.
  - rewrite Z.sub_diag. reflexivity.
Qed.

(** ** The objective at special points *)

(** X2: where the cast, interpolated at [p], has the very salinity and
    temperature of the bottle, the objective is exactly [0], for any bottle
    pressure, as long as the equation of state is finite there; when it is
    infinite or NaN there the objective is NaN. *)
Theorem func_at_coinciding_point
        (p sB tB pB : float) (S T P : array)
        (eos : eos_fn) (interp_fn : interp_fn_t) :
  interp_fn p P S T = (sB, tB) ->
  _func p sB tB pB S T P eos interp_fn
  = if is_finite (eos sB tB ((pB + p) * 0.5)) then 0 else nan.
Proof.
  intros Hinterp. unfold _func. rewrite Hinterp. apply sub_diag.
Qed.

Lemma func_at_coinciding_point_witness :
  _func 200 35 10 120 cast_S cast_T cast_P eos_linear interp_linear
  = if is_finite (eos_linear 35 10 ((120 + 200) * 0.5)) then 0 else nan.
Proof.
  apply func_at_coinciding_point. vm_compute. reflexivity.
Defined.

(** X3: a NaN from the equation of state, at the bottle or at the
    interpolated cast point, makes the objective NaN: no placeholder stands
    in for a failed evaluation. *)
Theorem func_nan_propagates
        (p sB tB pB : float) (S T P : array)
        (eos : eos_fn) (interp_fn : interp_fn_t) :
  is_nan (eos sB tB ((pB + p) * 0.5)) = true \/
  is_nan (eos (fst (interp_fn p P S T)) (snd (interp_fn p P S T))
              ((pB + p) * 0.5)) = true ->
  _func p sB tB pB S T P eos interp_fn = nan.
Proof.
  intros H. unfold _func.
  destruct (interp_fn p P S T) as [s t]. apply sub_nan. exact H.
Qed.

Lemma func_nan_propagates_witness :
  _func 500 35 10 200 cast_S cast_T cast_P eos_linear interp_linear = nan.
Proof.
  apply func_nan_propagates. right. vm_compute. reflexivity.
Defined.

(** ** The public connector on short casts *)

Lemma find_first_nan_short (S : array) :
  (length S <= 1)%nat \/
  is_nan (nth 0 S nan) = true \/ is_nan (nth 1 S nan) = true ->
  (find_first_nan S <= 1)%Z.
Proof.
  intros H. destruct S as [| x [| y r]]; cbn [find_first_nan].
  - lia.
  - destruct (is_nan x); lia.
  - destruct (is_nan x) eqn:Hx; [lia |].
    destruct (is_nan y) eqn:Hy; [lia |].
    cbn [length nth] in H. destruct H as [H | [H | H]]; [lia | |];
      congruence.
Qed.

(** X4: when the salinity of the cast has fewer than two entries, or a NaN
    among its first two, the public connector returns the missing result,
    whatever the bottle, the temperatures and the pressures are (they may
    even be empty). *)
Theorem ntp_bottle_to_cast_short_salinity
        (guess_to_bounds :
           (float -> func_args -> float) -> float -> float -> float ->
           func_args -> float * float)
        (brent :
           (float -> func_args -> float) -> float -> float -> float ->
           func_args -> float)
        (make_eos : eos_sel -> option float -> option float -> eos_fn)
        (make_interpolator :
           String.string -> Z -> String.string -> bool -> interp_fn_t)
        (sB tB pB : float) (S T P : array) (tol_p : float)
        (interp : String.string) (eos : eos_sel)
        (grav rho_c : option float) :
  (length S <= 1)%nat \/
  is_nan (nth 0 S nan) = true \/ is_nan (nth 1 S nan) = true ->
  ntp_bottle_to_cast guess_to_bounds brent make_eos make_interpolator
                     sB tB pB S T P tol_p interp eos grav rho_c
  = Ok (nan, nan, nan).
Proof.
  intros H. unfold ntp_bottle_to_cast.
  apply ntp_bottle_to_cast_short. apply find_first_nan_short. exact H.
Qed.

Lemma ntp_bottle_to_cast_short_salinity_witness :
  ntp_bottle_to_cast guess_to_bounds_ref brent_ref
                     make_eos_ref make_interpolator_ref
                     35 10 200 [34; nan; 35; 35.5; 36] cast_T cast_P
                     tol_p_default "linear"%string (EosFn eos_linear)
                     None None
  = Ok (nan, nan, nan).
Proof.
  apply ntp_bottle_to_cast_short_salinity. right. right. reflexivity.
Defined.

(** ** The driver on one cast and on none *)

Lemma neutral_trajectory_raises_witness :
  neutral_trajectory guess_to_bounds_ref brent_ref
                     make_eos_ref make_interpolator_ref
                     five_S five_T five_P 200 None None tol_p_default
                     "linear"%string (EosFn eos_linear) None None
  = Raise TypeError.
Proof.
  apply neutral_trajectory_raises; vm_compute; lia.
Defined.

(** X5: on a single cast the driver returns arrays of one entry: the
    first cast interpolated at [p0], and [p0] itself; the connector is not
    called.  Columns of [T] and [P] beyond the first are not read. *)
Theorem neutral_trajectory_single_cast
        (guess_to_bounds :
           (float -> func_args -> float) -> float -> float -> float ->
           func_args -> float * float)
        (brent :
           (float -> func_args -> float) -> float -> float -> float ->
           func_args -> float)
        (make_eos : eos_sel -> option float -> option float -> eos_fn)
        (make_interpolator :
           String.string -> Z -> String.string -> bool -> interp_fn_t)
        (S T P : array2) (p0 : float) (s0 t0 : option float) (tol_p : float)
        (interp : String.string) (eos : eos_sel) (grav rho_c : option float) :
  nc S = 1%nat -> (1 <= nc T)%nat -> (1 <= nc P)%nat ->
  neutral_trajectory guess_to_bounds brent make_eos make_interpolator
                     S T P p0 s0 t0 tol_p interp eos grav rho_c
  = let st := make_interpolator
                interp 0%Z "1"%string true p0
                (map (fun r => nth 0 r nan) (rows P))
                (map (fun r => nth 0 r nan) (rows S))
                (map (fun r => nth 0 r nan) (rows T)) in
    Ok ([fst st], [snd st], [p0]).
Proof.
  intros HS HT HP. unfold neutral_trajectory, neutral_trajectory_with.
  rewrite !column_ok by lia. cbn [bind].
  destruct (make_interpolator interp 0%Z "1"%string true p0 _ _ _)
    as [s_0 t_0].
  rewrite HS. reflexivity.
Qed.

Lemma neutral_trajectory_single_cast_witness :
  neutral_trajectory guess_to_bounds_ref brent_ref
                     make_eos_ref make_interpolator_ref
                     one_S one_T one_P 150 None None tol_p_default
                     "linear"%string (EosFn eos_linear) None None
  = let st := make_interpolator_ref
                "linear"%string 0%Z "1"%string true 150
                (map (fun r => nth 0 r nan) (rows one_P))
                (map (fun r => nth 0 r nan) (rows one_S))
                (map (fun r => nth 0 r nan) (rows one_T)) in
    Ok ([fst st], [snd st], [150]).
Proof.
  apply neutral_trajectory_single_cast; vm_compute; lia.
Defined.

(** X6: when one of [S], [T], [P] has no column at all, the driver raises
    [IndexError] on taking the first cast. *)
Theorem neutral_trajectory_no_cast
        (guess_to_bounds :
           (float -> func_args -> float) -> float -> float -> float ->
           func_args -> float * float)
        (brent :
           (float -> func_args -> float) -> float -> float -> float ->
           func_args -> float)
        (make_eos : eos_sel -> option float -> option float -> eos_fn)
        (make_interpolator :
           String.string -> Z -> String.string -> bool -> interp_fn_t)
        (S T P : array2) (p0 : float) (s0 t0 : option float) (tol_p : float)
        (interp : String.string) (eos : eos_sel) (grav rho_c : option float) :
  nc S = 0%nat \/ nc T = 0%nat \/ nc P = 0%nat ->
  neutral_trajectory guess_to_bounds brent make_eos make_interpolator
                     S T P p0 s0 t0 tol_p interp eos grav rho_c
  = Raise IndexError.
Proof.
  intros H. unfold neutral_trajectory, neutral_trajectory_with, column.
  destruct (Nat.ltb_spec 0 (nc S)) as [HS | HS]; [| reflexivity].
  destruct (Nat.ltb_spec 0 (nc T)) as [HT | HT]; [| reflexivity].
  destruct (Nat.ltb_spec 0 (nc P)) as [HP | HP]; [| reflexivity].
  lia.
Qed.

Lemma neutral_trajectory_no_cast_witness :
  neutral_trajectory guess_to_bounds_ref brent_ref
                     make_eos_ref make_interpolator_ref
                     (mk_array2 5 0 [[]; []; []; []; []]) one_T one_P
                     150 None None tol_p_default
                     "linear"%string (EosFn eos_linear) None None
  = Raise IndexError.
Proof.
  apply neutral_trajectory_no_cast. left. reflexivity.
Defined.

(** ** The count of valid points *)

Lemma sum_isfinite_bounds (a : array) :
  (0 <= sum_isfinite a <= Z.of_nat (length a))%Z.
Proof.
  induction a as [| x r IH]; cbn [sum_isfinite length].
  - lia.
  - destruct (is_finite x); lia.
Qed.

Lemma sum_isfinite_zero (a : array) :
  sum_isfinite a = 0%Z <-> Forall (fun x => is_finite x = false) a.
Proof.
  induction a as [| x r IH]; cbn [sum_isfinite].
  - split; [constructor | reflexivity].
  - pose proof (sum_isfinite_bounds r) as Hb.
    destruct (is_finite x) eqn:Hx; split; intros H.
    + lia.
    + inversion H; subst. congruence.
    + constructor; [exact Hx | apply IH; lia].
    + inversion H; subst. apply IH in H3. lia.
Qed.

(** X7: the count [K] that the loop takes for the valid length of a cast
    counts the finite entries wherever they stand: after a leading run of
    finite entries it is the length of that run exactly when no finite entry
    follows, and larger otherwise. *)
Theorem sum_isfinite_leading_run (pre rest : array) :
  Forall (fun x => is_finite x = true) pre ->
  sum_isfinite (pre ++ rest)
  = (Z.of_nat (length pre) + sum_isfinite rest)%Z
  /\ (Z.of_nat (length pre) <= sum_isfinite (pre ++ rest))%Z
  /\ (sum_isfinite (pre ++ rest) = Z.of_nat (length pre)
      <-> Forall (fun x => is_finite x = false) rest).
Proof.
  intros Hpre.
  assert (Hsum : sum_isfinite (pre ++ rest)
                 = (Z.of_nat (length pre) + sum_isfinite rest)%Z).
  { induction Hpre as [| x pre Hx _ IH]; cbn [app sum_isfinite length].
    - lia.
    - rewrite Hx, IH. lia. }
  pose proof (sum_isfinite_bounds rest) as Hb.
  split; [exact Hsum |]. split; [lia |].
  rewrite Hsum, <- sum_isfinite_zero. lia.
Qed.

Lemma sum_isfinite_leading_run_witness :
  sum_isfinite ([1%float; 2%float] ++ [nan; 3%float])
  = (Z.of_nat (length [1%float; 2%float]) + sum_isfinite [nan; 3%float])%Z
  /\ (Z.of_nat (length [1%float; 2%float]) <= sum_isfinite ([1%float; 2%float] ++ [nan; 3%float]))%Z
  /\ (sum_isfinite ([1%float; 2%float] ++ [nan; 3%float]) = Z.of_nat (length [1%float; 2%float])
      <-> Forall (fun x => is_finite x = false) [nan; 3%float]).
Proof.
  apply sum_isfinite_leading_run. repeat constructor.
Defined.

(** ** The point returned by the connector *)

Lemma getitem_first (a : array) :
  (1 <= length a)%nat -> getitem a 0 = Ok (nth 0 a nan).
Proof.
  intros Hlen. apply (@getitem_pred a 1%nat); lia.
Qed.

Lemma getitem_last_valid (a : array) (n : Z) :
  (1 < n <= Z.of_nat (length a))%Z ->
  getitem a (n - 1) = Ok (nth (Z.to_nat n - 1) a nan).
Proof.
  intros Hn.
  replace (n - 1)%Z with (Z.of_nat (Z.to_nat n) - 1)%Z by lia.
  apply getitem_pred; lia.
Qed.

(** X8: when the valid length does not exceed the length of [P], the
    connector returns (it does not raise), and what it returns is either the
    missing result or a point of the cast: the salinity and the temperature
    are the interpolator's values at the pressure returned. *)
Theorem ntp_bottle_to_cast_point_on_cast
        (guess_to_bounds :
           (float -> func_args -> float) -> float -> float -> float ->
           func_args -> float * float)
        (brent :
           (float -> func_args -> float) -> float -> float -> float ->
           func_args -> float)
        (sB tB pB : float) (S T P : array) (n_good : Z) (tol_p : float)
        (eos : eos_fn) (interp_fn : interp_fn_t) :
  (n_good <= Z.of_nat (length P))%Z ->
  exists s t p : float,
    _ntp_bottle_to_cast guess_to_bounds brent
                        sB tB pB S T P n_good tol_p eos interp_fn
    = Ok (s, t, p)
    /\ (missing (s, t, p) \/ interp_fn p P S T = (s, t)).
Proof.
  intros Hlen.
  destruct (Z.ltb_spec 1 n_good) as [Hn | Hn].
  - rewrite (@ntp_bottle_to_cast_unfold
               guess_to_bounds brent sB tB pB S T P tol_p eos interp_fn
               n_good (nth 0 P nan) (nth (Z.to_nat n_good - 1) P nan) Hn)
      by (try apply getitem_first; try apply getitem_last_valid; lia).
    cbv zeta.
    destruct (is_finite (fst (guess_to_bounds _ _ _ _ _))).
    + do 3 eexists. split; [reflexivity |]. right.
      destruct (interp_fn _ P S T); reflexivity.
    + exists nan, nan, nan. split; [reflexivity | left; reflexivity].
  - exists nan, nan, nan. split; [| left; reflexivity].
    apply ntp_bottle_to_cast_short. exact Hn.
Qed.

Lemma ntp_bottle_to_cast_point_on_cast_witness :
  exists s t p : float,
    _ntp_bottle_to_cast guess_to_bounds_ref brent_ref
                        34.5 14.5 120 cast_S cast_T cast_P 5
                        tol_p_default eos_linear interp_linear
    = Ok (s, t, p)
    /\ (missing (s, t, p) \/ interp_linear p cast_P cast_S cast_T = (s, t)).
Proof.
  apply ntp_bottle_to_cast_point_on_cast. vm_compute. discriminate.
Defined.
